(** * FinPer chatbot: command parser and budget accounting

    A shallow embedding of [app.py] and [data_handler.py]: the message
    handler with its five command families, the monthly aggregation of the
    ledger and the budget status with its report.

    Conventions of the embedding:
    - Python [int] is [Z]; [str] is [string], each character standing for
      the code point of the same number (U+0000 to U+00FF);
    - the spreadsheet is the list of its rows, [budgets.json] is a finite
      map from [str(phone)] to the stored amount;
    - a handler is a function from the stores to an outcome (the reply, or
      the exception that escapes) and the stores it leaves behind: what
      was written before an exception stays written;
    - [datetime.now()] and the random transaction id are inputs, read once
      for a message;
    - reading and writing the two files always succeeds, and a column of
      the spreadsheet holds Python integers of any size. *)

From Stdlib Require Import ZArith List Ascii String Bool Lia.
From Stdlib Require Import SpecFloat.
From stdpp Require Import base decidable option list gmap strings pretty sorting.

Local Open Scope string_scope.
Local Open Scope list_scope.
Local Open Scope Z_scope.

Set Warnings "-clear-no-such-hyp".

(** ** Python built-ins on text and integers *)

Module Py.

Definition ord (c : ascii) : Z := Z.of_N (N_of_ascii c).
Definition chr (n : Z) : ascii := ascii_of_N (Z.to_N n).

(** [str.isspace] on one character: TAB..CR, FS..US, space, NEL, NBSP. *)
Definition isspace (c : ascii) : bool :=
  let n := ord c in
  ((9 <=? n) && (n <=? 13)) || ((28 <=? n) && (n <=? 32))
  || (n =? 133) || (n =? 160).

(** [str.lower] on one character: A..Z and the accented capitals
    U+00C0..U+00DE (all but the multiplication sign U+00D7). *)
Definition lower_char (c : ascii) : ascii :=
  let n := ord c in
  if ((65 <=? n) && (n <=? 90))
     || ((192 <=? n) && (n <=? 222) && negb (n =? 215))
  then chr (n + 32) else c.

(** [str.upper] on one character.  The sharp s becomes two letters; the
    capitals of U+00B5 and U+00FF lie beyond U+00FF and are kept as they
    are: like their capitals they differ from every ASCII letter. *)
Definition upper_char (c : ascii) : string :=
  let n := ord c in
  if ((97 <=? n) && (n <=? 122))
     || ((224 <=? n) && (n <=? 254) && negb (n =? 247))
  then String (chr (n - 32)) ""
  else if n =? 223 then "SS"
  else String c "".

Fixpoint lower (s : string) : string :=
  match s with
  | "" => ""
  | String c s' => String (lower_char c) (lower s')
  end.

Fixpoint upper (s : string) : string :=
  match s with
  | "" => ""
  | String c s' => upper_char c +:+ upper s'
  end.

(** [str.split()] without separator: the maximal runs of characters that
    are not white space, in order. [tok] is the run being read. *)
Fixpoint split_aux (tok : string) (s : string) : list string :=
  match s with
  | "" => if decide (tok = "") then [] else [tok]
  | String c s' =>
      if isspace c
      then (if decide (tok = "") then [] else [tok]) ++ split_aux "" s'
      else split_aux (tok +:+ String c "") s'
  end.

Definition split (s : string) : list string := split_aux "" s.

(** [sep.join(l)] *)
Fixpoint join (sep : string) (l : list string) : string :=
  match l with
  | [] => ""
  | [x] => x
  | x :: l' => x +:+ sep +:+ join sep l'
  end.

(** Leading and trailing characters that satisfy [sp] are dropped. *)
Fixpoint lstrip (sp : ascii → bool) (s : string) : string :=
  match s with
  | String c s' => if sp c then lstrip sp s' else s
  | "" => ""
  end.

Definition strip (sp : ascii → bool) (s : string) : string :=
  String.rev (lstrip sp (String.rev (lstrip sp s))).

(** The white space that [int] drops around a literal: as [isspace], but
    for the separators FS..US. *)
Definition int_space (c : ascii) : bool :=
  let n := ord c in
  ((9 <=? n) && (n <=? 13)) || (n =? 32) || (n =? 133) || (n =? 160).

Definition digit (c : ascii) : option Z :=
  let n := ord c in
  if (48 <=? n) && (n <=? 57) then Some (n - 48) else None.

(** The digits of an [int] literal: decimal digits, with single
    underscores allowed between two digits. [prev] tells whether the
    character just read was a digit. *)
Fixpoint int_digits (acc : Z) (prev : bool) (s : string) : option Z :=
  match s with
  | "" => if prev then Some acc else None
  | String c s' =>
      match digit c with
      | Some d => int_digits (10 * acc + d) true s'
      | None =>
          if prev && Ascii.eqb c "_"%char then
            match s' with
            | String c' _ =>
                if is_Some_dec (digit c') then int_digits acc false s'
                else None
            | "" => None
            end
          else None
      end
  end.

(** [int(s)] for a string: [None] stands for [ValueError].  White space
    around the literal is dropped, one sign is allowed.  The limit that
    the interpreter may set on the number of digits (4300 unless
    configured) is not part of the embedding. *)
Definition int (s : string) : option Z :=
  match strip int_space s with
  | String "-"%char s' => Z.opp <$> int_digits 0 false s'
  | String "+"%char s' => int_digits 0 false s'
  | s' => int_digits 0 false s'
  end.

(** [str(n)] for an integer *)
Definition str (n : Z) : string := pretty n.

(** Digits with a comma before every group of three, counted from the
    right. *)
Fixpoint group3 (s : string) : string :=
  match s with
  | "" => ""
  | String c s' =>
      let n := String.length s' in
      if (0 <? Z.of_nat n) && (Z.of_nat n mod 3 =? 0)
      then String c ("," +:+ group3 s')
      else String c (group3 s')
  end.

(** [format(n, ",")]: the thousands separator of [f"{n:,}"]. *)
Definition format_comma (n : Z) : string :=
  if n <? 0 then "-" +:+ group3 (pretty (Z.abs n)) else group3 (pretty n).

End Py.

(** ** Python floats

    A [float] is an IEEE 754 binary64 number, here a [spec_float] in
    canonical form.  Every operation below rounds to nearest, ties to even,
    by exact integer arithmetic. *)

Module PyFloat.

Definition prec : Z := 53.
Definition emax : Z := 1024.

Definition float : Type := spec_float.

(** The double nearest to the fraction [n/d] of two positive integers,
    with sign [neg].  The quotient is cut after at least 55 bits and one
    more bit records that something was cut, which is all the rounding
    needs; too large a quotient comes out as an infinity. *)
Definition nearest (neg : bool) (n d : Z) : float :=
  let sh := 55 - (Z.log2 n - Z.log2 d) in
  let num := if 0 <=? sh then n * 2 ^ sh else n in
  let den := if 0 <=? sh then d else d * 2 ^ (- sh) in
  let m := 2 * (num / den) + (if num mod den =? 0 then 0 else 1) in
  binary_normalize prec emax (if neg then - m else m) (- sh - 1) neg.

(** [float(n)] *)
Definition of_int (n : Z) : float := binary_normalize prec emax n 0 false.

(** [x * y] *)
Definition mul (x y : float) : float := SFmul prec emax x y.

(** Syntactic equality of canonical values. *)
Definition same (x y : float) : bool :=
  match x, y with
  | S754_zero s, S754_zero s' => Bool.eqb s s'
  | S754_infinity s, S754_infinity s' => Bool.eqb s s'
  | S754_nan, S754_nan => true
  | S754_finite s m e, S754_finite s' m' e' =>
      Bool.eqb s s' && (m =? m')%positive && (e =? e')
  | _, _ => false
  end.

(** [n/d] rounded to an integer, ties to even ([0 < d]). *)
Definition div_half_even (n d : Z) : Z :=
  let q := n / d in
  let r := n mod d in
  if 2 * r <? d then q
  else if d <? 2 * r then q + 1
  else if Z.even q then q else q + 1.

(** [round(x, 1)]: the decimal with one place nearest to the exact value
    of [x] (ties to the even digit), read back as a double; what is not
    finite, and a zero, round to themselves. *)
Definition round1 (x : float) : float :=
  match x with
  | S754_finite s m e =>
      let tenths :=
        if 0 <=? e then 10 * Z.pos m * 2 ^ e
        else div_half_even (10 * Z.pos m) (2 ^ (- e)) in
      if tenths =? 0 then S754_zero s else nearest s tenths 10
  | _ => x
  end.

(** *** [repr]: the shortest decimal that reads back as the same double *)

(** [c * 10^j] as a double *)
Definition of_decimal (neg : bool) (c j : Z) : float :=
  if 0 <=? j then nearest neg (c * 10 ^ j) 1 else nearest neg c (10 ^ (- j)).

(** The largest [k] with [10^k <= n/d], searched upwards from a lower
    estimate read off the binary lengths. *)
Fixpoint log10_up (fuel : nat) (n d k : Z) : Z :=
  match fuel with
  | O => k
  | S fuel' =>
      let above := if 0 <=? k + 1 then d * 10 ^ (k + 1) <=? n
                   else d <=? n * 10 ^ (- (k + 1)) in
      if above then log10_up fuel' n d (k + 1) else k
  end.

Definition log10_floor (n d : Z) : Z :=
  log10_up 4 n d ((Z.log2 n - Z.log2 d - 1) * 30102 / 100000 - 1).

(** With [p] significant digits: the two decimals [c * 10^j] around
    [n/d]; the one that reads back as [x], the nearer one if both do. *)
Definition candidate (x : float) (neg : bool) (n d k : Z) (p : Z)
  : option (Z * Z) :=
  let j := k - p + 1 in
  let num := if 0 <=? j then n else n * 10 ^ (- j) in
  let den := if 0 <=? j then d * 10 ^ j else d in
  let lo := num / den in
  let hi := lo + 1 in
  let r := num mod den in
  let lo_ok := (0 <? lo) && same (of_decimal neg lo j) x in
  let hi_ok := same (of_decimal neg hi j) x in
  let lo_nearer := (2 * r <? den) || ((2 * r =? den) && Z.even lo) in
  if lo_ok && (negb hi_ok || lo_nearer) then Some (lo, j)
  else if hi_ok then Some (hi, j)
  else None.

Fixpoint shortest (fuel : nat) (x : float) (neg : bool) (n d k p : Z)
  : Z * Z :=
  match fuel with
  | O => (0, 0)
  | S fuel' =>
      match candidate x neg n d k p with
      | Some cj => cj
      | None => shortest fuel' x neg n d k (p + 1)
      end
  end.

(** Trailing zeros of the digits move into the exponent. *)
Fixpoint strip_zeros (fuel : nat) (c j : Z) : Z * Z :=
  match fuel with
  | O => (c, j)
  | S fuel' =>
      if (c mod 10 =? 0) && negb (c =? 0)
      then strip_zeros fuel' (c / 10) (j + 1) else (c, j)
  end.

Fixpoint zeros (n : nat) : string :=
  match n with O => "" | S n' => String "0" (zeros n') end.

(** The layout of [repr]: digits [ds] with the decimal point after the
    first [decpt] of them; exponent notation when [decpt] is below -3 or
    above 16. *)
Definition layout (ds : string) (decpt : Z) : string :=
  let nd := Z.of_nat (String.length ds) in
  if (decpt <=? -4) || (16 <? decpt) then
    let ex := decpt - 1 in
    let mant :=
      match ds with
      | String c "" => String c ""
      | String c ds' => String c ("." +:+ ds')
      | "" => ""
      end in
    let exs := pretty (Z.abs ex) in
    mant +:+ "e" +:+ (if ex <? 0 then "-" else "+")
         +:+ (if Z.abs ex <? 10 then "0" else "") +:+ exs
  else if decpt <=? 0 then
    "0." +:+ zeros (Z.to_nat (- decpt)) +:+ ds
  else if nd <=? decpt then
    ds +:+ zeros (Z.to_nat (decpt - nd)) +:+ ".0"
  else
    substring 0 (Z.to_nat decpt) ds +:+ "."
      +:+ substring (Z.to_nat decpt) (Z.to_nat (nd - decpt)) ds.

Definition repr (x : float) : string :=
  match x with
  | S754_nan => "nan"
  | S754_infinity s => if s then "-inf" else "inf"
  | S754_zero s => if s then "-0.0" else "0.0"
  | S754_finite s m e =>
      let n := if 0 <=? e then Z.pos m * 2 ^ e else Z.pos m in
      let d := if 0 <=? e then 1 else 2 ^ (- e) in
      let '(c, j) := shortest 17 x s n d (log10_floor n d) 1 in
      let '(c', j') := strip_zeros 17 c j in
      let ds := pretty c' in
      (if s then "-" else "") +:+ layout ds (Z.of_nat (String.length ds) + j')
  end.

End PyFloat.

(** ** Exceptions, stores and the handler monad *)

Inductive exn := ValueError | OverflowError | ZeroDivisionError.

Inductive outcome (A : Type) :=
  | Ret (a : A)
  | Raise (e : exn).
Arguments Ret {A} a.
Arguments Raise {A} e.

(** A Python number that is an [int] or a [float]. *)
Inductive number :=
  | Int (n : Z)
  | Float (x : PyFloat.float).

Module PyNum.

(** Half way between the largest double and [2^1024]: what is at least
    this large rounds to [2^1024], which no double holds. *)
Definition too_large : Z := 2 ^ 1024 - 2 ^ 970.

(** [a / b] on two integers: the double nearest to the exact quotient;
    [OverflowError] when no double is. *)
Definition truediv (a b : Z) : outcome PyFloat.float :=
  if b =? 0 then Raise ZeroDivisionError
  else
    let neg := xorb (a <? 0) (b <? 0) in
    if a =? 0 then Ret (S754_zero neg)
    else if too_large * Z.abs b <=? Z.abs a then Raise OverflowError
    else Ret (PyFloat.nearest neg (Z.abs a) (Z.abs b)).

(** [round(x, 1)]: an [int] is returned as it is. *)
Definition round1 (x : number) : number :=
  match x with
  | Int n => Int n
  | Float y => Float (PyFloat.round1 y)
  end.

(** [str(x)], which is what [f"{x}"] prints. *)
Definition str (x : number) : string :=
  match x with
  | Int n => Py.str n
  | Float y => PyFloat.repr y
  end.

(** [x == y] *)
Definition eqb (x y : number) : bool :=
  match x, y with
  | Int n, Int m => n =? m
  | Float a, Float b => SFeqb a b
  | Int n, Float a | Float a, Int n =>
      match a with
      | S754_zero _ => n =? 0
      | S754_finite s m e =>
          if 0 <=? e then n =? (if s then - (Z.pos m * 2 ^ e) else Z.pos m * 2 ^ e)
          else n * 2 ^ (- e) =? (if s then Z.neg m else Z.pos m)
      | _ => false
      end
  end.

End PyNum.

Record date := { d_year : Z; d_month : Z; d_day : Z }.

(** [datetime]: the calendar date and the time of day in microseconds. *)
Record datetime := { dt_date : date; dt_time : Z }.

(** One row of the spreadsheet, a field per column. *)
Record Transaction := {
  ID : string;
  Fecha : date;
  Tipo : string;
  Cantidad : Z;
  Divisa : string;
  Tipo_de_Cambio : Z;
  Categoria : string;
  Detalle : string;
  Notas : option string;
  Productos : option string;
  Ubicacion : option string;
  Telefono : Z;
  Creado : datetime
}.

#[global] Instance date_eq_dec : EqDecision date.
Proof. solve_decision. Defined.
#[global] Instance datetime_eq_dec : EqDecision datetime.
Proof. solve_decision. Defined.
#[global] Instance Transaction_eq_dec : EqDecision Transaction.
Proof. solve_decision. Defined.

(** The two files: [Finanzas_Bot.xlsx] and [budgets.json]. A missing file
    reads as no rows, or as no budgets. *)
Record Stores := {
  ledger : list Transaction;
  budgets : gmap string Z
}.

(** What one message reads from outside the stores: the clock and the
    random identifier of a new row. *)
Record Env := {
  now : datetime;
  new_id : string
}.

Definition M (A : Type) : Type := Stores → outcome A * Stores.

Definition ret {A} (a : A) : M A := λ st, (Ret a, st).
Definition raise {A} (e : exn) : M A := λ st, (Raise e, st).
Definition bind {A B} (m : M A) (k : A → M B) : M B :=
  λ st, match m st with
        | (Ret a, st') => k a st'
        | (Raise e, st') => (Raise e, st')
        end.
Definition lift {A} (o : outcome A) : M A := λ st, (o, st).

Notation "'let*' x ':=' m 'in' k" := (bind m (λ x, k))
  (at level 10, x pattern, m at level 100, k at level 200).

(** [l[i]] where the source has checked [len(l) > i] before. *)
Definition item (l : list string) (i : nat) : string := default "" (l !! i).

Definition len {A} (l : list A) : Z := Z.of_nat (length l).

Definition nl : string := String "010"%char "".

(** ** [data_handler.py] *)

Module DataHandler.

Definition DEFAULT_TIPO_CAMBIO : Z := 3900.

(** *** Excel operations *)

Definition read_transactions : M (list Transaction) :=
  λ st, (Ret (ledger st), st).

Definition save_transactions (df : list Transaction) : M unit :=
  λ st, (Ret tt, {| ledger := df; budgets := budgets st |}).

(** The optional columns [notas], [productos] and [ubicacion] are never
    passed by the handlers and keep their default [None]. *)
Definition add_transaction (env : Env) (phone : Z) (tipo : string)
    (cantidad : Z) (divisa : string) (tipo_cambio : Z)
    (categoria detalle : string) : M Transaction :=
  let* df := read_transactions in
  let new_row := {|
    ID := new_id env;
    Fecha := dt_date (now env);
    Tipo := tipo;
    Cantidad := cantidad;
    Divisa := divisa;
    Tipo_de_Cambio := tipo_cambio;
    Categoria := categoria;
    Detalle := detalle;
    Notas := None;
    Productos := None;
    Ubicacion := None;
    Telefono := phone;
    Creado := now env |} in
  let* _ := save_transactions (df ++ [new_row]) in
  ret new_row.

(** *** Budget operations *)

Definition _load_budgets : M (gmap string Z) :=
  λ st, (Ret (budgets st), st).

Definition _save_budgets (b : gmap string Z) : M unit :=
  λ st, (Ret tt, {| ledger := ledger st; budgets := b |}).

Definition get_budget (phone : Z) : M (option Z) :=
  let* b := _load_budgets in
  ret (b !! Py.str phone).

Definition set_budget (phone amount : Z) : M unit :=
  let* b := _load_budgets in
  _save_budgets (<[Py.str phone := amount]> b).

(** *** Budget status *)

(** [x or d] for an optional integer: [None] and [0] give [d]. *)
Definition or_else (x : option Z) (d : Z) : Z :=
  match x with
  | Some v => if v =? 0 then d else v
  | None => d
  end.

(** The row mask of [get_monthly_expenses_cop]. *)
Definition mask (phone year month : Z) (row : Transaction) : bool :=
  (Telefono row =? phone)
  && String.eqb (Tipo row) "egreso"
  && (d_year (Fecha row) =? year)
  && (d_month (Fecha row) =? month).

(** The column [Cantidad_COP]. *)
Definition Cantidad_COP (row : Transaction) : Z :=
  if String.eqb (Divisa row) "USD"
  then Cantidad row * Tipo_de_Cambio row
  else Cantidad row.

Definition sum (l : list Z) : Z := foldr Z.add 0 l.

(** [groupby("Categoría")["Cantidad_COP"].sum().to_dict()] *)
Definition groupby_sum (rows : list Transaction) : gmap string Z :=
  foldr (λ row acc,
           <[Categoria row := default 0 (acc !! Categoria row) + Cantidad_COP row]> acc)
        ∅ rows.

Definition get_monthly_expenses_cop (env : Env) (phone : Z)
    (year month : option Z) : M (Z * gmap string Z) :=
  let year := or_else year (d_year (dt_date (now env))) in
  let month := or_else month (d_month (dt_date (now env))) in
  let* df := read_transactions in
  match df with
  | [] => ret (0, ∅)
  | _ =>
      let expenses := List.filter (mask phone year month) df in
      match expenses with
      | [] => ret (0, ∅)
      | _ =>
          let total := sum (Cantidad_COP <$> expenses) in
          let by_category := groupby_sum expenses in
          ret (total, by_category)
      end
  end.

(** The dictionary returned by [get_budget_status]: its keys depend on
    [has_budget]. *)
Inductive BudgetStatus :=
  | NoBudget (spent_cop : Z) (by_category : gmap string Z)
  | WithBudget (budget spent_cop : Z) (percentage : number)
      (remaining : Z) (by_category : gmap string Z).

Definition has_budget (s : BudgetStatus) : bool :=
  match s with NoBudget _ _ => false | WithBudget _ _ _ _ _ => true end.

Definition spent_cop (s : BudgetStatus) : Z :=
  match s with NoBudget sp _ | WithBudget _ sp _ _ _ => sp end.

Definition by_category (s : BudgetStatus) : gmap string Z :=
  match s with NoBudget _ c | WithBudget _ _ _ _ c => c end.

Definition get_budget_status (env : Env) (phone : Z) : M BudgetStatus :=
  let* budget := get_budget phone in
  let* (spent, by_category) := get_monthly_expenses_cop env phone None None in
  match budget with
  | None => ret (NoBudget spent by_category)
  | Some budget =>
      let* percentage :=
        if 0 <? budget then
          let* q := lift (PyNum.truediv spent budget) in
          ret (Float (PyFloat.mul q (PyFloat.of_int 100)))
        else ret (Int 0) in
      let remaining := budget - spent in
      ret (WithBudget budget spent (PyNum.round1 percentage) remaining
             by_category)
  end.

End DataHandler.

(** ** [app.py] *)

Module App.

Import DataHandler.

(** [int(phone)]: a [ValueError] here is not caught by any handler. *)
Definition int_phone (phone : string) : M Z :=
  match Py.int phone with
  | Some p => ret p
  | None => raise ValueError
  end.

(** *** Formatting *)

Definition months_es : list string :=
  [ ""; "Enero"; "Febrero"; "Marzo"; "Abril"; "Mayo"; "Junio";
    "Julio"; "Agosto"; "Septiembre"; "Octubre"; "Noviembre"; "Diciembre" ].

(** The order of [sorted] on the items of a dictionary: tuples compare by
    their first component, then by their second. *)
Definition item_le (x y : string * Z) : Prop :=
  (x.1 ≠ y.1 ∧ String.le x.1 y.1) ∨ (x.1 = y.1 ∧ x.2 ≤ y.2).

#[global] Instance item_le_dec : RelDecision item_le.
Proof. intros x y. unfold item_le. apply _. Defined.

Definition sorted_items (d : gmap string Z) : list (string * Z) :=
  merge_sort item_le (map_to_list d).

Definition category_line (it : string * Z) : string :=
  "  - " +:+ it.1 +:+ ": $" +:+ Py.format_comma it.2 +:+ " COP".

(** The lines about the budget: after the header, before the categories. *)
Definition budget_lines (status : BudgetStatus) : list string :=
  match status with
  | NoBudget spent _ =>
      [ "Gastado este mes: $" +:+ Py.format_comma spent +:+ " COP";
        "";
        "No tienes un tope mensual configurado.";
        "Usa *tope <monto>* para definirlo." ]
  | WithBudget budget spent percentage remaining _ =>
      [ "Tope mensual: $" +:+ Py.format_comma budget +:+ " COP";
        "Gastado: $" +:+ Py.format_comma spent +:+ " COP ("
          +:+ PyNum.str percentage +:+ "%)";
        if 0 <=? remaining
        then "Disponible: $" +:+ Py.format_comma remaining +:+ " COP"
        else "EXCEDIDO por: $" +:+ Py.format_comma (Z.abs remaining) +:+ " COP" ]
  end.

(** The block [Por categoria], absent for an empty dictionary. *)
Definition category_lines (status : BudgetStatus) : list string :=
  if decide (by_category status = ∅) then []
  else [ ""; "Por categoria:" ]
       ++ (category_line <$> sorted_items (by_category status)).

(** The list [lines] that [format_budget_status] joins.  The month of a
    [datetime] lies between 1 and 12, within [months_es]. *)
Definition report_lines (env : Env) (status : BudgetStatus) : list string :=
  let month_name :=
    item months_es (Z.to_nat (d_month (dt_date (now env)))) in
  [ "Estado del presupuesto - " +:+ month_name +:+ " "
      +:+ Py.str (d_year (dt_date (now env))) ]
  ++ budget_lines status ++ category_lines status.

Definition format_budget_status (env : Env) (status : BudgetStatus) : string :=
  Py.join nl (report_lines env status).

Definition msg_ayuda : string :=
  "Comandos disponibles:" +:+ nl +:+ nl
  +:+ "*gasto <monto> <categoria> <detalle>*" +:+ nl
  +:+ "  Registrar un gasto en COP" +:+ nl
  +:+ "  Ej: gasto 50000 alimentacion almuerzo" +:+ nl +:+ nl
  +:+ "*gasto <monto> USD <categoria> <detalle>*" +:+ nl
  +:+ "  Registrar un gasto en dolares" +:+ nl
  +:+ "  Ej: gasto 20 USD tecnologia hosting" +:+ nl +:+ nl
  +:+ "*ingreso <monto> <categoria> <detalle>*" +:+ nl
  +:+ "  Registrar un ingreso" +:+ nl
  +:+ "  Ej: ingreso 3000000 salario mensual" +:+ nl +:+ nl
  +:+ "*tope <monto>*" +:+ nl
  +:+ "  Definir tope mensual en COP" +:+ nl
  +:+ "  Ej: tope 2000000" +:+ nl +:+ nl
  +:+ "*estado*" +:+ nl
  +:+ "  Ver resumen del mes (gastado, % y disponible)" +:+ nl +:+ nl
  +:+ "*ayuda*" +:+ nl
  +:+ "  Ver este mensaje".

Definition msg_no_entendi : string :=
  "No entendi el comando. Escribe *ayuda* para ver los comandos disponibles.".

Definition msg_formato_gasto : string :=
  "Formato: *gasto <monto> <categoria> <detalle>*" +:+ nl
  +:+ "Ejemplo: gasto 50000 alimentacion almuerzo" +:+ nl
  +:+ "Para USD: gasto 20 USD tecnologia hosting".

Definition msg_monto_gasto : string :=
  "El monto debe ser un numero. Ejemplo: *gasto 50000 alimentacion almuerzo*".

Definition msg_formato_ingreso : string :=
  "Formato: *ingreso <monto> <categoria> <detalle>*" +:+ nl
  +:+ "Ejemplo: ingreso 3000000 salario mensual".

Definition msg_monto_ingreso : string :=
  "El monto debe ser un numero. Ejemplo: *ingreso 3000000 salario mensual*".

Definition msg_sin_tope : string :=
  "No tienes un tope mensual. Usa: *tope <monto>*" +:+ nl
  +:+ "Ejemplo: tope 2000000".

Definition msg_monto_tope : string :=
  "El monto debe ser un numero. Ejemplo: *tope 2000000*".

(** *** Command handlers *)

(** The currency and the index of the category, from the second
    argument. *)
Definition divisa_of (args : list string) : string * nat :=
  if (1 <? len args)
     && bool_decide (Py.upper (item args 1) ∈ ["USD"; "COP"])
  then (Py.upper (item args 1), 2%nat)
  else ("COP", 1%nat).

Definition categoria_of (args : list string) (next_idx : nat) : string :=
  if Z.of_nat next_idx <? len args then item args next_idx else "general".

Definition detalle_of (args : list string) (next_idx : nat) : string :=
  if Z.of_nat next_idx + 1 <? len args
  then Py.join " " (drop (next_idx + 1) args)
  else "".

Definition handle_estado (env : Env) (phone : string) : M string :=
  let* p := int_phone phone in
  let* status := get_budget_status env p in
  ret (format_budget_status env status).

Definition handle_gasto (env : Env) (phone : string) (args : list string)
  : M string :=
  if len args <? 2 then ret msg_formato_gasto
  else
    match Py.int (item args 0) with
    | None => ret msg_monto_gasto
    | Some cantidad =>
        let '(divisa, next_idx) := divisa_of args in
        let categoria := categoria_of args next_idx in
        let detalle := detalle_of args next_idx in
        let* p := int_phone phone in
        let* _ := add_transaction env p "egreso" cantidad divisa
                    DEFAULT_TIPO_CAMBIO categoria detalle in
        let cantidad_cop :=
          if String.eqb divisa "USD" then cantidad * DEFAULT_TIPO_CAMBIO
          else cantidad in
        let response :=
          "Gasto registrado: $" +:+ Py.format_comma cantidad +:+ " " +:+ divisa in
        let response :=
          if String.eqb divisa "USD"
          then response +:+ " ($" +:+ Py.format_comma cantidad_cop +:+ " COP)"
          else response in
        let response := response +:+ " en " +:+ categoria in
        let response :=
          if decide (detalle = "") then response
          else response +:+ " - " +:+ detalle in
        let* p := int_phone phone in
        let* status := get_budget_status env p in
        ret (response +:+ nl +:+ nl +:+ format_budget_status env status)
    end.

Definition handle_ingreso (env : Env) (phone : string) (args : list string)
  : M string :=
  if len args <? 2 then ret msg_formato_ingreso
  else
    match Py.int (item args 0) with
    | None => ret msg_monto_ingreso
    | Some cantidad =>
        let '(divisa, next_idx) := divisa_of args in
        let categoria := categoria_of args next_idx in
        let detalle := detalle_of args next_idx in
        let* p := int_phone phone in
        let* _ := add_transaction env p "ingreso" cantidad divisa
                    DEFAULT_TIPO_CAMBIO categoria detalle in
        ret ("Ingreso registrado: $" +:+ Py.format_comma cantidad +:+ " "
               +:+ divisa +:+ " en " +:+ categoria)
    end.

Definition handle_tope (phone : string) (args : list string) : M string :=
  match args with
  | [] =>
      let* p := int_phone phone in
      let* budget := get_budget p in
      match budget with
      | Some b =>
          if b =? 0 then ret msg_sin_tope
          else ret ("Tu tope mensual actual es: $" +:+ Py.format_comma b
                      +:+ " COP" +:+ nl +:+ "Para cambiarlo: *tope <monto>*")
      | None => ret msg_sin_tope
      end
  | _ =>
      match Py.int (item args 0) with
      | None => ret msg_monto_tope
      | Some amount =>
          let* p := int_phone phone in
          let* _ := set_budget p amount in
          ret ("Tope mensual actualizado: $" +:+ Py.format_comma amount +:+ " COP")
      end
  end.

(** *** Message handling *)

Definition handle_message (env : Env) (phone text : string) : M string :=
  let parts := Py.split (Py.lower text) in
  match parts with
  | [] => ret msg_ayuda
  | command :: _ =>
      if bool_decide (command ∈ ["gasto"; "egreso"]) then
        handle_gasto env phone (drop 1 parts)
      else if bool_decide (command ∈ ["ingreso"; "entrada"]) then
        handle_ingreso env phone (drop 1 parts)
      else if bool_decide (command ∈ ["tope"; "presupuesto"]) then
        handle_tope phone (drop 1 parts)
      else if bool_decide (command ∈ ["estado"; "resumen"]) then
        handle_estado env phone
      else if String.eqb command "ayuda" then ret msg_ayuda
      else ret msg_no_entendi
  end.

End App.

(** ** Notions used to state the properties *)

Import DataHandler App.

(** *** Messages and tokens *)

(** Text without a token: empty, or white space only. *)
Fixpoint blank (s : string) : bool :=
  match s with
  | "" => true
  | String c s' => Py.isspace c && blank s'
  end.






(** *** Rows and stores *)

(** The row that [add_transaction] builds. *)
Definition new_row (env : Env) (phone : Z) (tipo : string) (cantidad : Z)
    (divisa categoria detalle : string) : Transaction :=
  {| ID := new_id env; Fecha := dt_date (now env); Tipo := tipo;
     Cantidad := cantidad; Divisa := divisa;
     Tipo_de_Cambio := DEFAULT_TIPO_CAMBIO;
     Categoria := categoria; Detalle := detalle; Notas := None;
     Productos := None; Ubicacion := None; Telefono := phone;
     Creado := now env |}.





(** *** The grammar of [gasto] and [ingreso], in the words of the
    specification *)

(** A token that equals a currency code when case is ignored. *)
Definition spec_currency (t : string) : option string :=
  if decide (Py.lower t = Py.lower "USD") then Some "USD"
  else if decide (Py.lower t = Py.lower "COP") then Some "COP"
  else None.

(** Currency, category and detail from [args], the tokens after the
    command word: the cursor stands after the currency when the second
    token is one, and on that token otherwise. *)
Definition spec_fields (args : list string) : string * string * string :=
  let cursor :=
    match spec_currency (item args 1) with Some _ => 2%nat | None => 1%nat end in
  (default "COP" (spec_currency (item args 1)),
   default "general" (args !! cursor),
   Py.join " " (drop (S cursor) args)).


(** *** The monthly aggregation, in the words of the specification *)

(** A record matches when its owner, its type and the year and month of
    its date are the requested ones. *)
Definition matches (phone year month : Z) (row : Transaction) : Prop :=
  Telefono row = phone ∧ Tipo row = "egreso"
  ∧ d_year (Fecha row) = year ∧ d_month (Fecha row) = month.

#[global] Instance matches_dec phone year month row :
  Decision (matches phone year month row).
Proof. unfold matches. apply _. Defined.

(** The amount in pesos: at the rate stored on the record when the
    currency is foreign, unchanged otherwise. *)
Definition converted (row : Transaction) : Z :=
  if decide (Divisa row = "USD") then Cantidad row * Tipo_de_Cambio row
  else Cantidad row.

Definition matching (phone year month : Z) (rows : list Transaction)
  : list Transaction :=
  filter (matches phone year month) rows.


(** *** The budget status *)

(** The month's spend and its categories, as [get_budget_status] reads
    them. *)
Definition month_spend (env : Env) (phone : Z) (st : Stores)
  : Z * gmap string Z :=
  match (get_monthly_expenses_cop env phone None None st).1 with
  | Ret r => r
  | Raise _ => (0, ∅)
  end.

(** The quotient [spent / budget] has a double: no positive budget is
    stored, or the month's spend stays below [too_large] budgets. *)
Definition fits_double (env : Env) (phone : Z) (st : Stores) : Prop :=
  ∀ b, budgets st !! Py.str phone = Some b → 0 < b →
       Z.abs (month_spend env phone st).1 < PyNum.too_large * b.



(** ** Sample inputs *)

Definition env0 : Env :=
  {| now := {| dt_date := {| d_year := 2026; d_month := 11; d_day := 3 |};
               dt_time := 36000000000 |};
     new_id := "k3x9a1bz" |}.

Definition phone0 : string := "573001234567".

Definition no_stores : Stores := {| ledger := []; budgets := ∅ |}.


(** Stores in which [phone0] has the budget 0, as [tope 0] leaves them. *)
Definition zero_budget : Stores :=
  {| ledger := []; budgets := {[ "573001234567" := 0 ]} |}.

(** An expense row of the given owner, amount, currency, category and
    month, stored with the rate 4100. *)
Definition expense (phone amount : Z) (divisa categoria : string)
    (year month : Z) : Transaction :=
  {| ID := "a0000000"; Fecha := {| d_year := year; d_month := month; d_day := 1 |};
     Tipo := "egreso"; Cantidad := amount; Divisa := divisa;
     Tipo_de_Cambio := 4100; Categoria := categoria; Detalle := "";
     Notas := None; Productos := None; Ubicacion := None; Telefono := phone;
     Creado := {| dt_date := {| d_year := year; d_month := month; d_day := 1 |};
                  dt_time := 0 |} |}.


(** A budget of 2,000,000 and one expense of 2,500,000 this month. *)
Definition over_budget : Stores :=
  {| ledger := [ expense 573001234567 2500000 "COP" "arriendo" 2026 11 ];
     budgets := {[ "573001234567" := 2000000 ]} |}.



(** ** Further notions *)


(** The two words of a command family. *)
Definition same_family (c1 c2 : string) : Prop :=
  ∃ family,
    family ∈ [ ["gasto"; "egreso"]; ["ingreso"; "entrada"];
               ["tope"; "presupuesto"]; ["estado"; "resumen"] ]
    ∧ c1 ∈ family ∧ c2 ∈ family.


(** ** [whatsapp.py]: the payload of the webhook *)

Module WhatsApp.

(** A value decoded from JSON: [None], [bool], [int], [float], [str],
    [list], and [dict] with its string keys. *)
#[local] Set Warnings "-register-all".
Inductive json :=
  | JNull
  | JBool (b : bool)
  | JInt (n : Z)
  | JFloat (x : PyFloat.float)
  | JStr (s : string)
  | JList (l : list json)
  | JDict (d : gmap string json).

(** The exceptions of the built-in operations on such values. *)
Inductive error := KeyError | IndexError | TypeError | AttributeError.

Inductive result (A : Type) :=
  | Ok (a : A)
  | Err (e : error).
Arguments Ok {A} a.
Arguments Err {A} e.

Definition and_then {A B} (r : result A) (k : A → result B) : result B :=
  match r with
  | Ok a => k a
  | Err e => Err e
  end.

Notation "'try*' x ':=' r 'in' k" := (and_then r (λ x, k))
  (at level 10, x pattern, r at level 100, k at level 200).

(** [x[k]] for a string [k]: a dictionary looks the key up, nothing else
    takes a string as index. *)
Definition getitem (x : json) (k : string) : result json :=
  match x with
  | JDict d => match d !! k with Some v => Ok v | None => Err KeyError end
  | _ => Err TypeError
  end.

(** [x[0]]: the first element of a list, the first character of a
    string; no dictionary decoded from JSON has the key 0. *)
Definition getitem0 (x : json) : result json :=
  match x with
  | JList (v :: _) => Ok v
  | JList [] => Err IndexError
  | JStr (String c _) => Ok (JStr (String c ""))
  | JStr "" => Err IndexError
  | JDict _ => Err KeyError
  | _ => Err TypeError
  end.

(** [sub in s] for two strings *)
Fixpoint substring_of (sub s : string) : bool :=
  String.prefix sub s
  || match s with
     | "" => false
     | String _ s' => substring_of sub s'
     end.

(** [k in x] for a string [k]: a key of a dictionary, an element of a
    list, a part of a string. *)
Definition contains (k : string) (x : json) : result bool :=
  match x with
  | JDict d => Ok (bool_decide (is_Some (d !! k)))
  | JList l =>
      Ok (existsb (λ v, match v with JStr s => String.eqb s k | _ => false end) l)
  | JStr s => Ok (substring_of k s)
  | _ => Err TypeError
  end.

(** [x.get(k, default)], a method of dictionaries only *)
Definition get (x : json) (k : string) (default : json) : result json :=
  match x with
  | JDict d => Ok (from_option id default (d !! k))
  | _ => Err AttributeError
  end.

(** [x.strip()], a method of strings only *)
Definition strip (x : json) : result string :=
  match x with
  | JStr s => Ok (Py.strip Py.isspace s)
  | _ => Err AttributeError
  end.

(** The body of the [try] block. The text of the pair is a string, or
    [None] next to the phone [None]. *)
Definition parse_incoming_body (data : json) : result (json * option string) :=
  try* entries := getitem data "entry" in
  try* entry := getitem0 entries in
  try* all_changes := getitem entry "changes" in
  try* changes := getitem0 all_changes in
  try* value := getitem changes "value" in
  try* has_messages := contains "messages" value in
  if negb has_messages then Ok (JNull, None)
  else
    try* messages := getitem value "messages" in
    try* message := getitem0 messages in
    try* phone := getitem message "from" in
    try* text_object := get message "text" (JDict ∅) in
    try* text := get text_object "body" (JStr "") in
    try* stripped := strip text in
    Ok (phone, Some stripped).

(** [except (KeyError, IndexError)]: the other two exceptions escape. *)
Definition parse_incoming (data : json) : result (json * option string) :=
  match parse_incoming_body data with
  | Err KeyError | Err IndexError => Ok (JNull, None)
  | r => r
  end.

End WhatsApp.

(** ** [app.py]: the webhook *)

Module Webhook.

Import WhatsApp.

(** An exception of the webhook: one of a built-in operation on the
    payload, or one that a handler lets through. *)
Inductive exception :=
  | Builtin (e : error)
  | Raised (e : exn).

Inductive answer (A : Type) :=
  | Done (a : A)
  | Failed (e : exception).
Arguments Done {A} a.
Arguments Failed {A} e.

(** The truth value of a decoded value, as [if x] tests it. *)
Definition truthy (x : json) : bool :=
  match x with
  | JNull => false
  | JBool b => b
  | JInt n => negb (n =? 0)
  | JFloat (S754_zero _) => false
  | JFloat _ => true
  | JStr s => negb (String.eqb s "")
  | JList l => negb (bool_decide (l = []))
  | JDict d => negb (bool_decide (d = ∅))
  end.

(** [int(x)]: a string is parsed, a boolean counts 0 or 1, a float is cut
    towards zero. *)
Definition int_json (x : json) : answer Z :=
  match x with
  | JStr s =>
      match Py.int s with
      | Some n => Done n
      | None => Failed (Raised ValueError)
      end
  | JInt n => Done n
  | JBool b => Done (if b then 1 else 0)
  | JFloat (S754_zero _) => Done 0
  | JFloat (S754_finite s m e) =>
      let magnitude :=
        if 0 <=? e then Z.pos m * 2 ^ e else Z.pos m / 2 ^ (- e) in
      Done (if s then - magnitude else magnitude)
  | JFloat (S754_infinity _) => Failed (Raised OverflowError)
  | JFloat S754_nan => Failed (Raised ValueError)
  | JNull | JList _ | JDict _ => Failed (Builtin TypeError)
  end.

Definition of_outcome {A} (o : outcome A) : answer A :=
  match o with
  | Ret a => Done a
  | Raise e => Failed (Raised e)
  end.

(** [handle_message(phone, text)] for a phone of any decoded type.  The
    handlers read the phone through [int(phone)] alone.  A phone that is
    not a string is therefore handled as the string of its integer value
    is; when [int] rejects it, as a string without integer value is, with
    the exception of [int] for this phone in the place of [ValueError]. *)
Definition handle_message (env : Env) (phone : json) (text : string)
    (st : Stores) : answer string * Stores :=
  match phone with
  | JStr s =>
      let '(o, st') := App.handle_message env s text st in (of_outcome o, st')
  | _ =>
      match int_json phone with
      | Done p =>
          let '(o, st') := App.handle_message env (Py.str p) text st in
          (of_outcome o, st')
      | Failed e =>
          let '(o, st') := App.handle_message env "" text st in
          (match o with Ret r => Done r | Raise _ => Failed e end, st')
      end
  end.

(** The two files, and the messages handed to the Graph API, oldest
    first: the recipient and the body of each. *)
Record World := {
  stores : Stores;
  outbox : list (json * string)
}.

(** [send_message(phone, text)]: the request is taken to succeed; its
    payload names [str(phone)] as recipient and [text] as body. *)
Definition send_message (phone : json) (text : string) (w : World) : World :=
  {| stores := stores w; outbox := outbox w ++ [(phone, text)] |}.

(** [receive_message()], for the decoded body [data] of the request.
    [Done tt] is the response [{"status": "ok"}] with status 200. *)
Definition receive_message (env : Env) (data : json) (w : World)
  : answer unit * World :=
  match parse_incoming data with
  | Err e => (Failed (Builtin e), w)
  | Ok (phone, text) =>
      match text with
      | Some text =>
          if truthy phone && negb (String.eqb text "") then
            match handle_message env phone text (stores w) with
            | (Done response_text, st') =>
                (Done tt,
                 send_message phone response_text
                   {| stores := st'; outbox := outbox w |})
            | (Failed e, st') =>
                (Failed e, {| stores := st'; outbox := outbox w |})
            end
          else (Done tt, w)
      | None => (Done tt, w)
      end
  end.

(** [verify_webhook()], for the configured [VERIFY_TOKEN] (if any) and
    the first value of each query parameter: the body of the response,
    [None] for a challenge that is missing, and its status. *)
Definition verify_webhook (VERIFY_TOKEN : option string)
    (args : gmap string string) : option string * Z :=
  let mode := args !! "hub.mode" in
  let token := args !! "hub.verify_token" in
  let challenge := args !! "hub.challenge" in
  if bool_decide (mode = Some "subscribe")
     && bool_decide (token = VERIFY_TOKEN)
  then (challenge, 200)
  else (Some "Forbidden", 403).

End Webhook.

(** ** [data_handler.py]: transaction identifiers *)

(** [string.ascii_lowercase + string.digits] *)
Definition id_alphabet : string := "abcdefghijklmnopqrstuvwxyz0123456789".

(** [generate_transaction_id(length)], for the [length] indices below 36
    that [random.choices] draws: the characters at these indices. *)
Definition generate_transaction_id (draws : list nat) : string :=
  string_of_list_ascii
    ((λ i, default "a"%char (list_ascii_of_string id_alphabet !! i)) <$> draws).

(** *** Payloads of the webhook *)

(** The payload of one message: [entry[0].changes[0].value.messages[0]]
    is [message]. *)
Definition payload_of (message : WhatsApp.json) : WhatsApp.json :=
  WhatsApp.JDict {[ "object" := WhatsApp.JStr "whatsapp_business_account";
    "entry" := WhatsApp.JList [ WhatsApp.JDict {[ "id" := WhatsApp.JStr "1";
      "changes" := WhatsApp.JList [ WhatsApp.JDict {[ "field" := WhatsApp.JStr "messages";
        "value" := WhatsApp.JDict {[ "messaging_product" := WhatsApp.JStr "whatsapp";
          "messages" := WhatsApp.JList [ message ] ]} ]} ] ]} ] ]}.

(** A text message from [from] with the body [body]. *)
Definition text_message (from body : string) : WhatsApp.json :=
  WhatsApp.JDict {[ "from" := WhatsApp.JStr from;
                    "type" := WhatsApp.JStr "text";
                    "text" := WhatsApp.JDict {[ "body" := WhatsApp.JStr body ]} ]}.

(** A status update: a value without [messages]. *)
Definition status_update : WhatsApp.json :=
  WhatsApp.JDict {[ "entry" := WhatsApp.JList [ WhatsApp.JDict {[
    "changes" := WhatsApp.JList [ WhatsApp.JDict {[
      "value" := WhatsApp.JDict {[
        "statuses" := WhatsApp.JList [ WhatsApp.JDict {[
          "status" := WhatsApp.JStr "delivered" ]} ] ]} ]} ] ]} ] ]}.

(** * Properties *)

(** Splits [H : cmd ∈ [w1; ...; wn]] into one goal per word. *)
Ltac word_cases H :=
  repeat (apply elem_of_cons in H as [->|H]);
  [..|by apply elem_of_nil in H].

(** ** Running the monad *)

Lemma bind_ret {A B} (a : A) (k : A → M B) st : bind (ret a) k st = k a st.
Proof. reflexivity. Qed.

Lemma bind_raise {A B} e (k : A → M B) st :
  bind (raise e) k st = (Raise e, st).
Proof. reflexivity. Qed.

Lemma bind_run {A B} (m : M A) (k : A → M B) st a st' :
  m st = (Ret a, st') → bind m k st = k a st'.
Proof. intros H. unfold bind. by rewrite H. Qed.

Lemma bind_fail {A B} (m : M A) (k : A → M B) st e st' :
  m st = (Raise e, st') → bind m k st = (Raise e, st').
Proof. intros H. unfold bind. by rewrite H. Qed.

Lemma int_phone_Some phone p st :
  Py.int phone = Some p → int_phone phone st = (Ret p, st).
Proof. intros H. unfold int_phone. by rewrite H. Qed.

Lemma int_phone_None phone st :
  Py.int phone = None → int_phone phone st = (Raise ValueError, st).
Proof. intros H. unfold int_phone. by rewrite H. Qed.

(** ** The stores as the handlers of [data_handler.py] leave them *)

Lemma get_budget_run phone st :
  get_budget phone st = (Ret (budgets st !! Py.str phone), st).
Proof. reflexivity. Qed.

Lemma set_budget_run phone amount st :
  set_budget phone amount st
  = (Ret tt, {| ledger := ledger st;
                budgets := <[Py.str phone := amount]> (budgets st) |}).
Proof. reflexivity. Qed.


(** The aggregation reads the ledger and nothing else. *)
Lemma get_monthly_expenses_cop_run env phone year month st :
  ∃ r, get_monthly_expenses_cop env phone year month st = (Ret r, st).
Proof.
  unfold get_monthly_expenses_cop, bind, read_transactions.
  destruct (ledger st) as [|row df]; [by eexists|].
  destruct (List.filter _ _); by eexists.
Qed.

Lemma month_spend_run env phone st :
  get_monthly_expenses_cop env phone None None st
  = (Ret (month_spend env phone st), st).
Proof.
  unfold month_spend.
  destruct (get_monthly_expenses_cop_run env phone None None st) as [r ->].
  reflexivity.
Qed.

Lemma truediv_fits s b :
  0 < b → Z.abs s < PyNum.too_large * b →
  ∃ q, PyNum.truediv s b = Ret q.
Proof.
  intros Hb Hs. unfold PyNum.truediv.
  destruct (b =? 0) eqn:E; [lia|].
  destruct (s =? 0); [by eexists|].
  rewrite (Z.abs_eq b) by lia.
  destruct (_ <=? _) eqn:E'; [lia|]. by eexists.
Qed.


(** ** The budget status, case by case *)

Section budget_status.
Context (env : Env) (phone : Z) (st : Stores).

Let spent := (month_spend env phone st).1.
Let cats := (month_spend env phone st).2.

Lemma get_budget_status_unfold :
  get_budget_status env phone st
  = match budgets st !! Py.str phone with
    | None => (Ret (NoBudget spent cats), st)
    | Some b =>
        if 0 <? b then
          match PyNum.truediv spent b with
          | Ret q =>
              (Ret (WithBudget b spent
                      (Float (PyFloat.round1 (PyFloat.mul q (PyFloat.of_int 100))))
                      (b - spent) cats), st)
          | Raise e => (Raise e, st)
          end
        else (Ret (WithBudget b spent (Int 0) (b - spent) cats), st)
    end.
Proof.
  unfold get_budget_status.
  rewrite (bind_run _ _ _ _ _ (get_budget_run phone st)).
  rewrite (bind_run _ _ _ _ _ (month_spend_run env phone st)).
  subst spent cats. destruct (month_spend env phone st) as [s c]; simpl.
  destruct (budgets st !! Py.str phone) as [b|]; [|done].
  destruct (0 <? b); [|done].
  unfold bind, lift, ret. by destruct (PyNum.truediv s b).
Qed.

Lemma get_budget_status_stores :
  (get_budget_status env phone st).2 = st.
Proof.
  rewrite get_budget_status_unfold.
  destruct (budgets st !! Py.str phone) as [b|]; [|done].
  destruct (0 <? b); [|done]. by destruct (PyNum.truediv spent b).
Qed.

Lemma get_budget_status_fits :
  fits_double env phone st →
  ∃ status, get_budget_status env phone st = (Ret status, st).
Proof.
  intros Hfit. rewrite get_budget_status_unfold.
  destruct (budgets st !! Py.str phone) as [b|] eqn:Hb; [|by eexists].
  destruct (0 <? b) eqn:Hpos; [|by eexists].
  destruct (truediv_fits spent b) as [q ->]; [lia|by apply Hfit; [|lia]|].
  by eexists.
Qed.


End budget_status.

(** ** The command handlers, path by path *)

Lemma handle_estado_run env phone p st :
  Py.int phone = Some p →
  handle_estado env phone st
  = match get_budget_status env p st with
    | (Ret status, st') => (Ret (format_budget_status env status), st')
    | (Raise e, st') => (Raise e, st')
    end.
Proof.
  intros Hp. unfold handle_estado.
  rewrite (bind_run _ _ _ _ _ (int_phone_Some _ _ _ Hp)).
  unfold bind. by destruct (get_budget_status env p st) as [[status|e] st'].
Qed.

Lemma handle_estado_stores env phone st :
  (handle_estado env phone st).2 = st.
Proof.
  destruct (Py.int phone) as [p|] eqn:Hp.
  - rewrite (handle_estado_run _ _ _ _ Hp).
    pose proof (get_budget_status_stores env p st) as H.
    by destruct (get_budget_status env p st) as [[status|e] st'].
  - unfold handle_estado. by rewrite (bind_fail _ _ _ _ _ (int_phone_None _ _ Hp)).
Qed.


Lemma handle_gasto_not_int env phone args st :
  2 ≤ len args → Py.int (item args 0) = None →
  handle_gasto env phone args st = (Ret msg_monto_gasto, st).
Proof.
  intros H Ha. unfold handle_gasto.
  destruct (len args <? 2) eqn:E; [lia|]. by rewrite Ha.
Qed.




Lemma handle_ingreso_not_int env phone args st :
  2 ≤ len args → Py.int (item args 0) = None →
  handle_ingreso env phone args st = (Ret msg_monto_ingreso, st).
Proof.
  intros H Ha. unfold handle_ingreso.
  destruct (len args <? 2) eqn:E; [lia|]. by rewrite Ha.
Qed.



Lemma handle_tope_query phone p st :
  Py.int phone = Some p →
  handle_tope phone [] st
  = (Ret match budgets st !! Py.str p with
         | Some b =>
             if b =? 0 then msg_sin_tope
             else "Tu tope mensual actual es: $" +:+ Py.format_comma b
                    +:+ " COP" +:+ nl +:+ "Para cambiarlo: *tope <monto>*"
         | None => msg_sin_tope
         end, st).
Proof.
  intros Hp. unfold handle_tope.
  rewrite (bind_run _ _ _ _ _ (int_phone_Some _ _ _ Hp)).
  rewrite (bind_run _ _ _ _ _ (get_budget_run _ _)).
  destruct (budgets st !! Py.str p) as [b|]; [|done]. by destruct (b =? 0).
Qed.

Lemma handle_tope_query_stores phone st : (handle_tope phone [] st).2 = st.
Proof.
  destruct (Py.int phone) as [p|] eqn:Hp.
  - by rewrite (handle_tope_query _ _ _ Hp).
  - unfold handle_tope. by rewrite (bind_fail _ _ _ _ _ (int_phone_None _ _ Hp)).
Qed.



Lemma handle_tope_set phone a rest amount p st :
  Py.int a = Some amount → Py.int phone = Some p →
  handle_tope phone (a :: rest) st
  = (Ret ("Tope mensual actualizado: $" +:+ Py.format_comma amount +:+ " COP"),
     {| ledger := ledger st;
        budgets := <[Py.str p := amount]> (budgets st) |}).
Proof.
  intros Ha Hp. unfold handle_tope, item. simpl. rewrite Ha.
  rewrite (bind_run _ _ _ _ _ (int_phone_Some _ _ _ Hp)).
  by rewrite (bind_run _ _ _ _ _ (set_budget_run _ _ _)).
Qed.

(** ** Tokens *)

Lemma isspace_lower_char c : Py.isspace (Py.lower_char c) = Py.isspace c.
Proof. by destruct c as [[] [] [] [] [] [] [] []]. Qed.

Lemma blank_lower s : blank (Py.lower s) = blank s.
Proof.
  induction s as [|c s IH]; [done|]. simpl.
  by rewrite isspace_lower_char, IH.
Qed.

Lemma app_char_ne_empty tok c : tok +:+ String c "" ≠ "".
Proof. by destruct tok. Qed.

Lemma split_aux_nil tok s :
  Py.split_aux tok s = [] ↔ tok = "" ∧ blank s = true.
Proof.
  revert tok. induction s as [|c s IH]; intros tok; simpl.
  - destruct (decide (tok = "")); naive_solver.
  - destruct (Py.isspace c); simpl.
    + destruct (decide (tok = "")) as [->|]; simpl; [|naive_solver].
      rewrite IH. naive_solver.
    + rewrite IH. pose proof (app_char_ne_empty tok c). naive_solver.
Qed.

(** A message has no token exactly when it is blank. *)
Lemma split_lower_nil text :
  Py.split (Py.lower text) = [] ↔ blank text = true.
Proof.
  unfold Py.split. rewrite split_aux_nil, blank_lower. naive_solver.
Qed.

(** ** The dispatch of [handle_message] *)


Lemma handle_message_dispatch env phone text cmd args st :
  Py.split (Py.lower text) = cmd :: args →
  handle_message env phone text st
  = if bool_decide (cmd ∈ ["gasto"; "egreso"]) then handle_gasto env phone args st
    else if bool_decide (cmd ∈ ["ingreso"; "entrada"]) then
      handle_ingreso env phone args st
    else if bool_decide (cmd ∈ ["tope"; "presupuesto"]) then
      handle_tope phone args st
    else if bool_decide (cmd ∈ ["estado"; "resumen"]) then
      handle_estado env phone st
    else if String.eqb cmd "ayuda" then (Ret msg_ayuda, st)
    else (Ret msg_no_entendi, st).
Proof.
  intros H. unfold handle_message. rewrite H. simpl.
  repeat case_bool_decide; try done. by destruct (String.eqb cmd "ayuda").
Qed.







(** ** What the tokens of a message look like *)





Lemma lower_char_idem c : Py.lower_char (Py.lower_char c) = Py.lower_char c.
Proof. by destruct c as [[] [] [] [] [] [] [] []]. Qed.








Lemma handle_tope_first phone a rest st :
  handle_tope phone (a :: rest) st = handle_tope phone [a] st.
Proof. reflexivity. Qed.



(** C6, amended.  A [gasto] or [ingreso] message (or a synonym) with at
    least two arguments whose first argument is not an integer gets the
    numeric-format reply of its command, which shows a worked example, and
    leaves both stores as they were. *)
Theorem amount_not_int_reply env phone text cmd args st :
  Py.split (Py.lower text) = cmd :: args →
  2 ≤ len args →
  Py.int (item args 0) = None →
  (cmd ∈ ["gasto"; "egreso"] →
     handle_message env phone text st = (Ret msg_monto_gasto, st))
  ∧ (cmd ∈ ["ingreso"; "entrada"] →
     handle_message env phone text st = (Ret msg_monto_ingreso, st))
  ∧ msg_monto_gasto
    = "El monto debe ser un numero. Ejemplo: *"
        +:+ "gasto 50000 alimentacion almuerzo" +:+ "*"
  ∧ msg_monto_ingreso
    = "El monto debe ser un numero. Ejemplo: *"
        +:+ "ingreso 3000000 salario mensual" +:+ "*".
Proof.
  intros Hparts Hlen Ha.
  rewrite (handle_message_dispatch _ _ _ _ _ _ Hparts).
  split; [|split; [|done]].
  - intros Hcmd. word_cases Hcmd; by apply handle_gasto_not_int.
  - intros Hcmd. word_cases Hcmd; by apply handle_ingreso_not_int.
Qed.

Lemma amount_not_int_reply_witness :
  handle_message env0 phone0 "gasto mucho alimentacion almuerzo" no_stores
  = (Ret msg_monto_gasto, no_stores)
  ∧ handle_message env0 phone0 "entrada 3.5 salario" no_stores
    = (Ret msg_monto_ingreso, no_stores).
Proof.
  split.
  - apply (proj1 (amount_not_int_reply env0 phone0
                    "gasto mucho alimentacion almuerzo" "gasto"
                    ["mucho"; "alimentacion"; "almuerzo"] no_stores
                    eq_refl ltac:(vm_compute; discriminate) eq_refl)).
    apply (bool_decide_eq_true_1 _). reflexivity.
  - apply (proj1 (proj2 (amount_not_int_reply env0 phone0
                    "entrada 3.5 salario" "entrada" ["3.5"; "salario"]
                    no_stores eq_refl ltac:(vm_compute; discriminate) eq_refl))).
    apply (bool_decide_eq_true_1 _). reflexivity.
Defined.

(** C6 as stated fails.  In [gasto abc] the amount token [abc] is not an
    integer, yet the reply is the usage message of [gasto], which differs
    from the numeric-format reply. *)
Lemma amount_not_int_counterexample :
  Py.split (Py.lower "gasto abc") = ["gasto"; "abc"]
  ∧ Py.int "abc" = None
  ∧ handle_message env0 phone0 "gasto abc" no_stores
    = (Ret msg_formato_gasto, no_stores)
  ∧ msg_formato_gasto ≠ msg_monto_gasto.
Proof. repeat split; try reflexivity. vm_compute. discriminate. Qed.

(** ** Which stores a message writes *)






(** C4, where the code departs from it.  [tope 0] stores the budget 0 for
    the phone; [get_budget] then returns it and [estado] reports it as the
    budget, but the bare [tope] answers that no budget is set. *)
Lemma handle_tope_zero_budget :
  (handle_message env0 phone0 "tope 0" no_stores).2 = zero_budget
  ∧ get_budget 573001234567 zero_budget = (Ret (Some 0), zero_budget)
  ∧ handle_message env0 phone0 "tope" zero_budget
    = (Ret msg_sin_tope, zero_budget)
  ∧ get_budget_status env0 573001234567 zero_budget
    = (Ret (WithBudget 0 0 (Int 0) 0 ∅), zero_budget).
Proof. repeat split; vm_compute; reflexivity. Qed.

(** The bare [tope] with a stored budget other than 0, and with none. *)
Lemma handle_tope_query_reply phone p st :
  Py.int phone = Some p →
  (∀ b, budgets st !! Py.str p = Some b → b ≠ 0 →
     handle_tope phone [] st
     = (Ret ("Tu tope mensual actual es: $" +:+ Py.format_comma b +:+ " COP"
               +:+ nl +:+ "Para cambiarlo: *tope <monto>*"), st))
  ∧ (budgets st !! Py.str p = None →
     handle_tope phone [] st = (Ret msg_sin_tope, st))
  ∧ (budgets st !! Py.str p = Some 0 →
     handle_tope phone [] st = (Ret msg_sin_tope, st)).
Proof.
  intros Hp. rewrite (handle_tope_query _ _ _ Hp). split_and!.
  - intros b -> Hb. destruct (b =? 0) eqn:E; [lia|done].
  - by intros ->.
  - by intros ->.
Qed.

(** ** Currency codes, upper and lower case *)







(** ** The fields of a recorded row *)








(** The grammar on sample messages: an amount of zero, a currency alone,
    a category alone. *)
Lemma record_fields_samples :
  spec_fields ["0"; "comida"] = ("COP", "comida", "")
  ∧ spec_fields ["5"; "Cop"] = ("COP", "general", "")
  ∧ spec_fields ["5"; "usd"; "viaje"; "taxi"; "al"; "aeropuerto"]
    = ("USD", "viaje", "taxi al aeropuerto")
  ∧ spec_fields ["5"; "usdt"; "x"] = ("COP", "usdt", "x")
  ∧ Py.int "0" = Some 0 ∧ Py.int "-15000" = Some (-15000).
Proof. repeat split. Qed.

(** ** The monthly aggregation *)

Lemma mask_matches phone year month row :
  mask phone year month row = true ↔ matches phone year month row.
Proof.
  unfold mask, matches. rewrite !andb_true_iff, !Z.eqb_eq, String.eqb_eq.
  naive_solver.
Qed.

Lemma filter_mask phone year month rows :
  List.filter (mask phone year month) rows = matching phone year month rows.
Proof.
  unfold matching. induction rows as [|row rows IH]; [done|]. simpl.
  rewrite filter_cons. destruct (mask phone year month row) eqn:E.
  - apply mask_matches in E. rewrite decide_True by done. by rewrite IH.
  - rewrite decide_False; [done|]. rewrite <-mask_matches. by rewrite E.
Qed.

Lemma Cantidad_COP_converted row : Cantidad_COP row = converted row.
Proof.
  unfold Cantidad_COP, converted.
  destruct (String.eqb_spec (Divisa row) "USD").
  - by rewrite decide_True.
  - by rewrite decide_False.
Qed.

Lemma sum_converted rows :
  DataHandler.sum (Cantidad_COP <$> rows) = DataHandler.sum (converted <$> rows).
Proof. f_equal. apply list_fmap_ext. intros _ row _. apply Cantidad_COP_converted. Qed.


Lemma groupby_sum_nil : groupby_sum [] = ∅.
Proof. reflexivity. Qed.

(** What [get_monthly_expenses_cop] returns, for the year and month that
    [or_else] selects. *)
Lemma get_monthly_expenses_cop_unfold env phone year month st :
  let y := or_else year (d_year (dt_date (now env))) in
  let m := or_else month (d_month (dt_date (now env))) in
  let rows := matching phone y m (ledger st) in
  get_monthly_expenses_cop env phone year month st
  = (Ret (DataHandler.sum (converted <$> rows), groupby_sum rows), st).
Proof.
  intros y m rows. subst rows. unfold get_monthly_expenses_cop.
  fold y m. unfold bind, read_transactions, ret.
  destruct (ledger st) as [|row df] eqn:Hdf; [done|].
  rewrite filter_mask, <-sum_converted.
  by destruct (matching phone y m (row :: df)).
Qed.



(** A missing or zero year or month selects the current one. *)
Lemma get_monthly_expenses_cop_default env phone st :
  get_monthly_expenses_cop env phone None None st
  = get_monthly_expenses_cop env phone (Some 0) (Some 0) st
  ∧ get_monthly_expenses_cop env phone None None st
    = (Ret (DataHandler.sum
              (converted <$> matching phone (d_year (dt_date (now env)))
                               (d_month (dt_date (now env))) (ledger st)),
            groupby_sum (matching phone (d_year (dt_date (now env)))
                           (d_month (dt_date (now env))) (ledger st))), st).
Proof. by rewrite !get_monthly_expenses_cop_unfold. Qed.

(** ** The budget status *)




(** ** The report *)

#[local] Instance item_le_total : Total item_le.
Proof.
  intros [c1 a1] [c2 a2]. unfold item_le. simpl.
  destruct (decide (c1 = c2)) as [->|Hne].
  - destruct (Z.le_ge_cases a1 a2); [left|right]; right; split; done || lia.
  - destruct (total String.le c1 c2); [left|right]; left; split; congruence || done.
Qed.

#[local] Instance item_le_trans : Transitive item_le.
Proof.
  intros [c1 a1] [c2 a2] [c3 a3]. unfold item_le. simpl.
  intros [[Hne1 H1]|[-> H1]] [[Hne2 H2]|[-> H2]].
  - left. split; [|by etrans].
    intros ->. by destruct Hne1; apply (anti_symm String.le).
  - by left.
  - by left.
  - right. split; [done|lia].
Qed.

#[local] Instance item_le_antisym : AntiSymm (=) item_le.
Proof.
  intros [c1 a1] [c2 a2]. unfold item_le. simpl.
  intros [[Hne1 H1]|[-> H1]] [[Hne2 H2]|[Heq H2]].
  - by destruct Hne1; apply (anti_symm String.le).
  - by destruct Hne1.
  - by destruct Hne2.
  - f_equal. lia.
Qed.









(** ** Scenarios *)

(** A budget is set, then queried: the reply names the new value, and the
    report shows it with nothing spent and no block of categories. *)
Example scenario_tope_estado :
  handle_message env0 phone0 "tope 2000000" no_stores
  = (Ret "Tope mensual actualizado: $2,000,000 COP",
     {| ledger := []; budgets := {[ "573001234567" := 2000000 ]} |})
  ∧ (handle_message env0 phone0 "estado"
       {| ledger := []; budgets := {[ "573001234567" := 2000000 ]} |}).1
    = Ret (Py.join nl
             [ "Estado del presupuesto - Noviembre 2026";
               "Tope mensual: $2,000,000 COP";
               "Gastado: $0 COP (0.0%)";
               "Disponible: $2,000,000 COP" ]).
Proof. split; vm_compute; reflexivity. Qed.

(** An expense in dollars is recorded with the default rate and counted in
    pesos at that rate. *)
Example scenario_gasto_usd :
  ∃ reply st,
    handle_message env0 phone0 "gasto 20 USD tecnologia hosting" no_stores
    = (Ret reply, st)
    ∧ ledger st = [ new_row env0 573001234567 "egreso" 20 "USD" "tecnologia"
                      "hosting" ]
    ∧ month_spend env0 573001234567 st = (78000, {[ "tecnologia" := 78000 ]})
    ∧ reply
      = Py.join nl
          [ "Gasto registrado: $20 USD ($78,000 COP) en tecnologia - hosting";
            "";
            "Estado del presupuesto - Noviembre 2026";
            "Gastado este mes: $78,000 COP";
            "";
            "No tienes un tope mensual configurado.";
            "Usa *tope <monto>* para definirlo.";
            "";
            "Por categoria:";
            "  - tecnologia: $78,000 COP" ].
Proof. do 2 eexists. split_and!; vm_compute; reflexivity. Qed.

(** [estado] changes no store, so asking twice gives the same reply. *)
Lemma estado_twice env phone st :
  handle_message env phone "estado" (handle_message env phone "estado" st).2
  = handle_message env phone "estado" st.
Proof.
  assert (handle_message env phone "estado" st = handle_estado env phone st)
    as Hrun by reflexivity.
  by rewrite Hrun, handle_estado_stores.
Qed.

(** A phone that is not a number: [int(phone)] raises past the handler. *)
Example scenario_phone_not_numeric :
  handle_message env0 "+57 300 123" "estado" no_stores
  = (Raise ValueError, no_stores).
Proof. reflexivity. Qed.

(** The largest quotient that has a double, and the first that has not. *)
Example truediv_boundary :
  PyNum.truediv (PyNum.too_large - 1) 1
  = Ret (S754_finite false 9007199254740991 971)
  ∧ PyFloat.nearest false PyNum.too_large 1 = S754_infinity false
  ∧ PyNum.truediv PyNum.too_large 1 = Raise OverflowError.
Proof. split_and!; vm_compute; reflexivity. Qed.

(** * Further properties *)

(** ** The budget store *)

(** X1.  Reading back what [set_budget] wrote: the phone has the new
    amount, every other phone has what it had, a second write replaces
    the first, and the ledger is not touched. *)
Theorem budget_round_trip phone amount st :
  let st' := (set_budget phone amount st).2 in
  get_budget phone st' = (Ret (Some amount), st')
  ∧ (∀ other, other ≠ phone →
       (get_budget other st').1 = (get_budget other st).1)
  ∧ (∀ amount2,
       (set_budget phone amount2 st').2 = (set_budget phone amount2 st).2)
  ∧ ledger st' = ledger st.
Proof.
  intros st'. subst st'. rewrite set_budget_run. cbn [snd]. split_and!.
  - rewrite get_budget_run. cbn [budgets]. by rewrite lookup_insert_eq.
  - intros other Hne. rewrite !get_budget_run. cbn [fst budgets].
    rewrite lookup_insert_ne; [done|].
    intros Heq. by apply (inj pretty) in Heq.
  - intros amount2. rewrite !set_budget_run. cbn [snd ledger budgets].
    by rewrite insert_insert_eq.
  - done.
Qed.

Lemma budget_round_trip_witness :
  (get_budget 573009999999
     (set_budget 573001234567 900000 over_budget).2).1
  = (get_budget 573009999999 over_budget).1.
Proof.
  apply (proj1 (proj2 (budget_round_trip 573001234567 900000 over_budget))).
  discriminate.
Defined.

(** X2.  A budget set by [tope] is what the bare [tope] then reports,
    unless it is 0, which the bare [tope] takes for no budget. *)
Theorem tope_set_then_query phone p a rest amount st :
  Py.int phone = Some p →
  Py.int a = Some amount →
  let st' := (handle_tope phone (a :: rest) st).2 in
  handle_tope phone [] st'
  = (Ret (if amount =? 0 then msg_sin_tope
          else "Tu tope mensual actual es: $" +:+ Py.format_comma amount
                 +:+ " COP" +:+ nl +:+ "Para cambiarlo: *tope <monto>*"),
     st').
Proof.
  intros Hp Ha st'. subst st'.
  rewrite (handle_tope_set _ _ _ _ _ _ Ha Hp). cbn [snd].
  rewrite (handle_tope_query _ _ _ Hp). cbn [budgets].
  by rewrite lookup_insert_eq.
Qed.

Lemma tope_set_then_query_witness :
  handle_tope phone0 [] (handle_tope phone0 ["2000000"] no_stores).2
  = (Ret ("Tu tope mensual actual es: $2,000,000 COP" +:+ nl
            +:+ "Para cambiarlo: *tope <monto>*"),
     (handle_tope phone0 ["2000000"] no_stores).2).
Proof.
  exact (tope_set_then_query phone0 573001234567 "2000000" [] 2000000
           no_stores eq_refl eq_refl).
Defined.

(** ** The phone *)

Lemma int_phone_ext phone1 phone2 :
  Py.int phone1 = Py.int phone2 → int_phone phone1 = int_phone phone2.
Proof. intros H. unfold int_phone. by rewrite H. Qed.

(** X3.  A handler reads the phone through [int(phone)] alone: two
    phones with the same integer value, or both without one, are
    answered alike. *)
Theorem phone_by_value env phone1 phone2 text st :
  Py.int phone1 = Py.int phone2 →
  handle_message env phone1 text st = handle_message env phone2 text st.
Proof.
  intros H. apply int_phone_ext in H.
  unfold handle_message, handle_gasto, handle_ingreso, handle_tope,
    handle_estado.
  by rewrite H.
Qed.

Lemma phone_by_value_witness :
  handle_message env0 "+573_001_234_567" "tope" over_budget
  = handle_message env0 phone0 "tope" over_budget.
Proof.
  apply (phone_by_value env0 "+573_001_234_567" phone0 "tope" over_budget).
  reflexivity.
Defined.

(** ** The stores after a message, case by case *)


(** ** The monthly aggregation, continued *)



















(** ** Replies *)



(** ** Words, case and white space *)

Lemma lower_idem s : Py.lower (Py.lower s) = Py.lower s.
Proof.
  induction s as [|c s IH]; [done|]. simpl. by rewrite lower_char_idem, IH.
Qed.

(** X9.  A message is read through its lowered tokens alone: letter case
    does not matter, and two messages whose first tokens belong to one
    family and whose other tokens agree are answered alike. *)
Theorem synonyms_and_case env phone text1 text2 c1 c2 args st :
  Py.split (Py.lower text1) = c1 :: args →
  Py.split (Py.lower text2) = c2 :: args →
  same_family c1 c2 →
  handle_message env phone text1 st = handle_message env phone text2 st
  ∧ handle_message env phone (Py.lower text1) st
    = handle_message env phone text1 st.
Proof.
  intros H1 H2 (family & Hfam & Hc1 & Hc2). split.
  - rewrite (handle_message_dispatch _ _ _ _ _ _ H1),
      (handle_message_dispatch _ _ _ _ _ _ H2).
    word_cases Hfam; word_cases Hc1; word_cases Hc2; reflexivity.
  - unfold handle_message. by rewrite lower_idem.
Qed.

Lemma synonyms_and_case_witness :
  handle_message env0 phone0 "EGRESO  20   Usd Tecnologia" over_budget
  = handle_message env0 phone0 "gasto 20 usd tecnologia" over_budget.
Proof.
  refine (proj1 (synonyms_and_case env0 phone0 "EGRESO  20   Usd Tecnologia"
                   "gasto 20 usd tecnologia" "egreso" "gasto"
                   ["20"; "usd"; "tecnologia"] over_budget eq_refl eq_refl _)).
  exists ["gasto"; "egreso"]. split_and!;
    apply (bool_decide_eq_true_1 _); reflexivity.
Defined.

(** ** The rows of the ledger *)







(** ** A phone that is not a number *)



(** ** Asking twice *)

(** X12.  The queries change no store, so a query that is repeated gets
    the same answer: [estado] and its synonym with whatever follows, the
    bare [tope] and its synonym, and [ayuda]. *)
Theorem queries_repeat env phone text cmd args st :
  Py.split (Py.lower text) = cmd :: args →
  cmd ∈ ["estado"; "resumen"; "ayuda"]
  ∨ (cmd ∈ ["tope"; "presupuesto"] ∧ args = []) →
  (handle_message env phone text st).2 = st
  ∧ handle_message env phone text (handle_message env phone text st).2
    = handle_message env phone text st.
Proof.
  intros Hparts Hq.
  assert ((handle_message env phone text st).2 = st) as Hst.
  { rewrite (handle_message_dispatch _ _ _ _ _ _ Hparts).
    destruct Hq as [Hcmd|[Hcmd ->]].
    - word_cases Hcmd; try done; apply handle_estado_stores.
    - word_cases Hcmd; apply handle_tope_query_stores. }
  by rewrite Hst.
Qed.

Lemma queries_repeat_witness :
  handle_message env0 phone0 "Resumen porfa"
    (handle_message env0 phone0 "Resumen porfa" over_budget).2
  = handle_message env0 phone0 "Resumen porfa" over_budget.
Proof.
  refine (proj2 (queries_repeat env0 phone0 "Resumen porfa" "resumen" ["porfa"]
                   over_budget eq_refl _)).
  left. apply (bool_decide_eq_true_1 _). reflexivity.
Defined.

(** ** The payload of the webhook *)

Section payload.
Import WhatsApp.

Lemma parse_incoming_body_message d e es c cs v m ms phone :
  d !! "entry" = Some (JList (JDict e :: es)) →
  e !! "changes" = Some (JList (JDict c :: cs)) →
  c !! "value" = Some (JDict v) →
  v !! "messages" = Some (JList (JDict m :: ms)) →
  m !! "from" = Some phone →
  parse_incoming_body (JDict d)
  = (try* text_object := get (JDict m) "text" (JDict ∅) in
     try* text := get text_object "body" (JStr "") in
     try* stripped := strip text in
     Ok (phone, Some stripped)).
Proof.
  intros Hd He Hc Hv Hm. unfold parse_incoming_body. cbn [getitem and_then].
  rewrite Hd. cbn [getitem0 getitem and_then]. rewrite He.
  cbn [getitem0 getitem and_then]. rewrite Hc.
  cbn [getitem0 getitem and_then contains]. rewrite Hv.
  rewrite bool_decide_eq_true_2 by eauto.
  cbn [negb getitem0 getitem and_then]. by rewrite Hm.
Qed.

Lemma parse_incoming_text d e es c cs v m ms phone t body :
  d !! "entry" = Some (JList (JDict e :: es)) →
  e !! "changes" = Some (JList (JDict c :: cs)) →
  c !! "value" = Some (JDict v) →
  v !! "messages" = Some (JList (JDict m :: ms)) →
  m !! "from" = Some phone →
  m !! "text" = Some (JDict t) → t !! "body" = Some (JStr body) →
  parse_incoming (JDict d) = Ok (phone, Some (Py.strip Py.isspace body)).
Proof.
  intros Hd He Hc Hv Hm Ht Hb. unfold parse_incoming.
  rewrite (parse_incoming_body_message d e es c cs v m ms phone) by done.
  cbn [get and_then]. rewrite Ht. cbn [from_option id get and_then].
  by rewrite Hb.
Qed.

Lemma parse_incoming_no_text d e es c cs v m ms phone :
  d !! "entry" = Some (JList (JDict e :: es)) →
  e !! "changes" = Some (JList (JDict c :: cs)) →
  c !! "value" = Some (JDict v) →
  v !! "messages" = Some (JList (JDict m :: ms)) →
  m !! "from" = Some phone →
  m !! "text" = None ∨ (∃ t, m !! "text" = Some (JDict t) ∧ t !! "body" = None) →
  parse_incoming (JDict d) = Ok (phone, Some "").
Proof.
  intros Hd He Hc Hv Hm Ht. unfold parse_incoming.
  rewrite (parse_incoming_body_message d e es c cs v m ms phone) by done.
  destruct Ht as [Ht|(t & Ht & Hb)].
  - cbn [get and_then]. rewrite Ht. cbn [from_option id get and_then].
    by rewrite lookup_empty.
  - cbn [get and_then]. rewrite Ht. cbn [from_option id get and_then].
    by rewrite Hb.
Qed.

Lemma parse_incoming_nothing d e es c cs v :
  d !! "entry" = Some (JList (JDict e :: es)) →
  e !! "changes" = Some (JList (JDict c :: cs)) →
  c !! "value" = Some (JDict v) →
  v !! "messages" = None ∨ v !! "messages" = Some (JList [])
  ∨ (∃ m ms, v !! "messages" = Some (JList (JDict m :: ms))
             ∧ m !! "from" = None) →
  parse_incoming (JDict d) = Ok (JNull, None).
Proof.
  intros Hd He Hc Hv.
  unfold parse_incoming, parse_incoming_body. cbn [getitem and_then].
  rewrite Hd. cbn [getitem0 getitem and_then]. rewrite He.
  cbn [getitem0 getitem and_then]. rewrite Hc.
  cbn [getitem0 getitem and_then contains].
  destruct Hv as [Hv|[Hv|(m & ms & Hv & Hm)]]; rewrite Hv.
  - by rewrite bool_decide_eq_false_2 by by intros [? ?].
  - by rewrite bool_decide_eq_true_2 by eauto.
  - rewrite bool_decide_eq_true_2 by eauto.
    cbn [negb getitem0 getitem and_then]. by rewrite Hm.
Qed.

(** X13.  A text message: the pair is the sender and the stripped body.
    A message without text, or with a text object without body, gives
    the empty text; a text that is no object fails with
    [AttributeError]. *)
Theorem parse_incoming_message d e es c cs v m ms phone :
  d !! "entry" = Some (JList (JDict e :: es)) →
  e !! "changes" = Some (JList (JDict c :: cs)) →
  c !! "value" = Some (JDict v) →
  v !! "messages" = Some (JList (JDict m :: ms)) →
  m !! "from" = Some phone →
  (∀ t body, m !! "text" = Some (JDict t) → t !! "body" = Some (JStr body) →
     parse_incoming (JDict d) = Ok (phone, Some (Py.strip Py.isspace body)))
  ∧ (m !! "text" = None
     ∨ (∃ t, m !! "text" = Some (JDict t) ∧ t !! "body" = None) →
     parse_incoming (JDict d) = Ok (phone, Some ""))
  ∧ (∀ x, m !! "text" = Some x → (∀ t, x ≠ JDict t) →
     parse_incoming (JDict d) = Err AttributeError).
Proof.
  intros Hd He Hc Hv Hm. split_and!.
  - intros t body Ht Hb. by eapply parse_incoming_text.
  - intros Ht. by eapply parse_incoming_no_text.
  - intros x Ht Hx. unfold parse_incoming.
    rewrite (parse_incoming_body_message d e es c cs v m ms phone) by done.
    cbn [get and_then]. rewrite Ht. cbn [from_option id].
    destruct x; try done. by destruct (Hx d0).
Qed.

Lemma parse_incoming_message_witness :
  parse_incoming (payload_of (text_message phone0 "  Gasto 20 usd comida  "))
  = Ok (JStr phone0, Some "Gasto 20 usd comida").
Proof.
  exact (proj1 (parse_incoming_message
                  {[ "object" := JStr "whatsapp_business_account";
                     "entry" := JList [ JDict {[ "id" := JStr "1";
                       "changes" := JList [ JDict {[ "field" := JStr "messages";
                         "value" := JDict {[ "messaging_product" := JStr "whatsapp";
                           "messages" := JList
                             [ text_message phone0 "  Gasto 20 usd comida  " ]
                         ]} ]} ] ]} ] ]}
                  {[ "id" := JStr "1";
                     "changes" := JList [ JDict {[ "field" := JStr "messages";
                       "value" := JDict {[ "messaging_product" := JStr "whatsapp";
                         "messages" := JList
                           [ text_message phone0 "  Gasto 20 usd comida  " ]
                       ]} ]} ] ]}
                  []
                  {[ "field" := JStr "messages";
                     "value" := JDict {[ "messaging_product" := JStr "whatsapp";
                       "messages" := JList
                         [ text_message phone0 "  Gasto 20 usd comida  " ] ]} ]}
                  []
                  {[ "messaging_product" := JStr "whatsapp";
                     "messages" := JList
                       [ text_message phone0 "  Gasto 20 usd comida  " ] ]}
                  {[ "from" := JStr phone0; "type" := JStr "text";
                     "text" := JDict {[ "body" := JStr "  Gasto 20 usd comida  " ]} ]}
                  [] (JStr phone0) eq_refl eq_refl eq_refl eq_refl eq_refl)
           {[ "body" := JStr "  Gasto 20 usd comida  " ]}
           "  Gasto 20 usd comida  " eq_refl eq_refl).
Defined.

(** X14.  What is no message: a body that is no object fails with
    [TypeError]; an object without [entry], or with an empty list of
    entries, gives [(None, None)], as does a status update, whose value
    has no [messages], and a message without sender. *)
Theorem parse_incoming_no_message :
  (∀ data, (∀ d, data ≠ JDict d) → parse_incoming data = Err TypeError)
  ∧ (∀ d, d !! "entry" = None ∨ d !! "entry" = Some (JList []) →
          parse_incoming (JDict d) = Ok (JNull, None))
  ∧ (∀ d e es c cs v,
       d !! "entry" = Some (JList (JDict e :: es)) →
       e !! "changes" = Some (JList (JDict c :: cs)) →
       c !! "value" = Some (JDict v) →
       v !! "messages" = None ∨ v !! "messages" = Some (JList [])
       ∨ (∃ m ms, v !! "messages" = Some (JList (JDict m :: ms))
                  ∧ m !! "from" = None) →
       parse_incoming (JDict d) = Ok (JNull, None)).
Proof.
  split_and!.
  - intros data Hdata. destruct data; try done. by destruct (Hdata d).
  - intros d [Hd|Hd]; unfold parse_incoming, parse_incoming_body;
      cbn [getitem and_then]; by rewrite Hd.
  - intros d e es c cs v Hd He Hc Hv. by eapply parse_incoming_nothing.
Qed.

Lemma parse_incoming_no_message_witness :
  parse_incoming status_update = Ok (JNull, None)
  ∧ parse_incoming (JList []) = Err TypeError.
Proof.
  split.
  - exact (proj2 (proj2 parse_incoming_no_message)
             {[ "entry" := JList [ JDict {[
                  "changes" := JList [ JDict {[
                    "value" := JDict {[
                      "statuses" := JList [ JDict {[
                        "status" := JStr "delivered" ]} ] ]} ]} ] ]} ] ]}
             {[ "changes" := JList [ JDict {[
                  "value" := JDict {[
                    "statuses" := JList [ JDict {[
                      "status" := JStr "delivered" ]} ] ]} ]} ] ]}
             []
             {[ "value" := JDict {[
                  "statuses" := JList [ JDict {[
                    "status" := JStr "delivered" ]} ] ]} ]}
             []
             {[ "statuses" := JList [ JDict {[ "status" := JStr "delivered" ]} ] ]}
             eq_refl eq_refl eq_refl (or_introl eq_refl)).
  - apply (proj1 parse_incoming_no_message). discriminate.
Defined.

End payload.

(** ** Stripping *)

Lemma lstrip_nil s : Py.lstrip Py.isspace s = "" ↔ blank s = true.
Proof.
  induction s as [|c s IH]; [done|]. simpl.
  destruct (Py.isspace c); simpl; [done|]. split; discriminate.
Qed.

Lemma lstrip_not_blank s :
  Py.lstrip Py.isspace s ≠ "" → blank (Py.lstrip Py.isspace s) = false.
Proof.
  induction s as [|c s IH]; [done|]. simpl.
  destruct (Py.isspace c) eqn:Hc; [done|]. intros _. simpl. by rewrite Hc.
Qed.

Lemma blank_rev_app s acc :
  blank (String.rev_app s acc) = blank s && blank acc.
Proof.
  revert acc. induction s as [|c s IH]; intros acc; [done|]. simpl.
  rewrite IH. simpl. by destruct (Py.isspace c), (blank s), (blank acc).
Qed.

Lemma blank_rev s : blank (String.rev s) = blank s.
Proof. unfold String.rev. rewrite blank_rev_app. simpl. apply andb_true_r. Qed.

Lemma rev_app_nil s acc : String.rev_app s acc = "" → s = "" ∧ acc = "".
Proof.
  revert acc. induction s as [|c s IH]; intros acc H; [done|].
  simpl in H. by apply IH in H as [_ ?].
Qed.

Lemma rev_nil s : String.rev s = "" → s = "".
Proof. intros H. by apply rev_app_nil in H as [? _]. Qed.

(** A body strips to the empty text exactly when it is blank, and what is
    left of any other body has a token. *)
Lemma strip_blank s : Py.strip Py.isspace s = "" ↔ blank s = true.
Proof.
  unfold Py.strip. split.
  - intros H. apply rev_nil, lstrip_nil in H. rewrite blank_rev in H.
    destruct (decide (Py.lstrip Py.isspace s = "")) as [E|E].
    + by apply lstrip_nil.
    + apply lstrip_not_blank in E. congruence.
  - intros H. apply lstrip_nil in H. by rewrite H.
Qed.

Lemma strip_has_token s :
  Py.strip Py.isspace s ≠ "" →
  Py.split (Py.lower (Py.strip Py.isspace s)) ≠ [].
Proof.
  intros Hne Hnil. apply split_lower_nil in Hnil.
  unfold Py.strip in *. rewrite blank_rev in Hnil.
  destruct (decide (Py.lstrip Py.isspace (String.rev (Py.lstrip Py.isspace s)) = ""))
    as [E|E].
  - by rewrite E in Hne.
  - apply lstrip_not_blank in E. congruence.
Qed.

(** ** The webhook *)

Section webhook.
Import WhatsApp Webhook.

(** X15.  A status update and a message whose text is missing or blank
    are not answered: nothing is sent, no store changes, and the
    response is the usual 200. *)
Theorem receive_message_silent env d e es c cs v w :
  d !! "entry" = Some (JList (JDict e :: es)) →
  e !! "changes" = Some (JList (JDict c :: cs)) →
  c !! "value" = Some (JDict v) →
  v !! "messages" = None
  ∨ (∃ m ms phone,
       v !! "messages" = Some (JList (JDict m :: ms))
       ∧ m !! "from" = Some phone
       ∧ (m !! "text" = None
          ∨ ∃ t body, m !! "text" = Some (JDict t)
                      ∧ t !! "body" = Some (JStr body)
                      ∧ blank body = true)) →
  receive_message env (JDict d) w = (Done tt, w).
Proof.
  intros Hd He Hc [Hv|(m & ms & phone & Hv & Hm & Ht)]; unfold receive_message.
  - rewrite (parse_incoming_nothing d e es c cs v); auto.
  - destruct Ht as [Ht|(t & body & Ht & Hb & Hblank)].
    + rewrite (parse_incoming_no_text d e es c cs v m ms phone); auto.
      simpl. by rewrite andb_false_r.
    + rewrite (parse_incoming_text d e es c cs v m ms phone t body); auto.
      apply strip_blank in Hblank.
      rewrite Hblank. simpl. by rewrite andb_false_r.
Qed.

(** X16.  A text message with a body that is not blank, from a sender
    given as a string that is not empty: the handler gets the stripped
    body, in which there is a token, and its reply is sent to the sender
    as the one new message. When the handler raises, nothing is sent,
    and the stores stay as the handler left them. *)
Theorem receive_message_reply env d e es c cs v m ms ph t body w :
  d !! "entry" = Some (JList (JDict e :: es)) →
  e !! "changes" = Some (JList (JDict c :: cs)) →
  c !! "value" = Some (JDict v) →
  v !! "messages" = Some (JList (JDict m :: ms)) →
  m !! "from" = Some (JStr ph) →
  m !! "text" = Some (JDict t) →
  t !! "body" = Some (JStr body) →
  ph ≠ "" →
  blank body = false →
  Py.split (Py.lower (Py.strip Py.isspace body)) ≠ []
  ∧ receive_message env (JDict d) w
    = match App.handle_message env ph (Py.strip Py.isspace body) (stores w) with
      | (Ret response_text, st') =>
          (Done tt, {| stores := st';
                       outbox := outbox w ++ [(JStr ph, response_text)] |})
      | (Raise exc, st') =>
          (Failed (Raised exc), {| stores := st'; outbox := outbox w |})
      end.
Proof.
  intros Hd He Hc Hv Hm Ht Hb Hph Hbody.
  assert (Py.strip Py.isspace body ≠ "") as Hne.
  { intros E. apply strip_blank in E. congruence. }
  split; [by apply strip_has_token|].
  unfold receive_message.
  rewrite (parse_incoming_text d e es c cs v m ms (JStr ph) t body) by done.
  cbn [truthy].
  apply String.eqb_neq in Hph, Hne. rewrite Hph, Hne. cbn [negb andb].
  unfold handle_message.
  by destruct (App.handle_message env ph (Py.strip Py.isspace body) (stores w))
    as [[r|exc] st'].
Qed.

Lemma receive_message_reply_witness :
  receive_message env0 (payload_of (text_message phone0 "  tope 5 "))
    {| stores := no_stores; outbox := [] |}
  = (Done tt,
     {| stores := (App.handle_message env0 phone0 "tope 5" no_stores).2;
        outbox := [(JStr phone0, "Tope mensual actualizado: $5 COP")] |}).
Proof.
  exact (proj2 (receive_message_reply env0
                  {[ "object" := JStr "whatsapp_business_account";
                     "entry" := JList [ JDict {[ "id" := JStr "1";
                       "changes" := JList [ JDict {[ "field" := JStr "messages";
                         "value" := JDict {[ "messaging_product" := JStr "whatsapp";
                           "messages" := JList [ text_message phone0 "  tope 5 " ]
                         ]} ]} ] ]} ] ]}
                  {[ "id" := JStr "1";
                     "changes" := JList [ JDict {[ "field" := JStr "messages";
                       "value" := JDict {[ "messaging_product" := JStr "whatsapp";
                         "messages" := JList [ text_message phone0 "  tope 5 " ]
                       ]} ]} ] ]}
                  []
                  {[ "field" := JStr "messages";
                     "value" := JDict {[ "messaging_product" := JStr "whatsapp";
                       "messages" := JList [ text_message phone0 "  tope 5 " ] ]} ]}
                  []
                  {[ "messaging_product" := JStr "whatsapp";
                     "messages" := JList [ text_message phone0 "  tope 5 " ] ]}
                  {[ "from" := JStr phone0; "type" := JStr "text";
                     "text" := JDict {[ "body" := JStr "  tope 5 " ]} ]}
                  [] phone0 {[ "body" := JStr "  tope 5 " ]} "  tope 5 "
                  {| stores := no_stores; outbox := [] |}
                  eq_refl eq_refl eq_refl eq_refl eq_refl eq_refl eq_refl
                  ltac:(discriminate) eq_refl)).
Defined.

Lemma receive_message_silent_witness :
  receive_message env0 status_update {| stores := over_budget; outbox := [] |}
  = (Done tt, {| stores := over_budget; outbox := [] |}).
Proof.
  exact (receive_message_silent env0
           {[ "entry" := JList [ JDict {[
                "changes" := JList [ JDict {[
                  "value" := JDict {[
                    "statuses" := JList [ JDict {[
                      "status" := JStr "delivered" ]} ] ]} ]} ] ]} ] ]}
           {[ "changes" := JList [ JDict {[
                "value" := JDict {[
                  "statuses" := JList [ JDict {[
                    "status" := JStr "delivered" ]} ] ]} ]} ] ]}
           []
           {[ "value" := JDict {[
                "statuses" := JList [ JDict {[
                  "status" := JStr "delivered" ]} ] ]} ]}
           []
           {[ "statuses" := JList [ JDict {[ "status" := JStr "delivered" ]} ] ]}
           {| stores := over_budget; outbox := [] |}
           eq_refl eq_refl eq_refl (or_introl eq_refl)).
Defined.



(** X18.  The verification of the webhook answers 200 exactly to a
    request in mode [subscribe] whose token is the configured one, with
    the challenge as body, and 403 with the body [Forbidden] to every
    other request. A token that is not configured is matched by the
    requests that carry no token. *)
Theorem verify_webhook_spec VERIFY_TOKEN args :
  let accepted :=
    args !! "hub.mode" = Some "subscribe"
    ∧ args !! "hub.verify_token" = VERIFY_TOKEN in
  (accepted →
   verify_webhook VERIFY_TOKEN args = (args !! "hub.challenge", 200))
  ∧ (¬ accepted → verify_webhook VERIFY_TOKEN args = (Some "Forbidden", 403))
  ∧ ((verify_webhook VERIFY_TOKEN args).2 = 200 ↔ accepted)
  ∧ (VERIFY_TOKEN = None → args !! "hub.mode" = Some "subscribe" →
     ((verify_webhook VERIFY_TOKEN args).2 = 200
      ↔ args !! "hub.verify_token" = None)).
Proof.
  unfold verify_webhook. cbn zeta.
  repeat case_bool_decide; cbn [andb snd]; split_and!; try tauto;
    try (intros; split; [done|tauto]); try (split; [done|tauto]);
    try (intros ->; intros; split; [done|intros; congruence]).
  all: try (intros -> ?; split; intros; [done|congruence]).
  all: try (intros -> ?; split; intros; [congruence|done]).
Qed.

Lemma verify_webhook_spec_witness :
  verify_webhook (Some "secret")
    {[ "hub.mode" := "subscribe"; "hub.verify_token" := "secret";
       "hub.challenge" := "1158201444" ]}
  = (Some "1158201444", 200)
  ∧ verify_webhook None {[ "hub.mode" := "subscribe"; "hub.challenge" := "7" ]}
    = (Some "7", 200).
Proof.
  split.
  - exact (proj1 (verify_webhook_spec (Some "secret")
                    {[ "hub.mode" := "subscribe"; "hub.verify_token" := "secret";
                       "hub.challenge" := "1158201444" ]})
             (conj eq_refl eq_refl)).
  - exact (proj1 (verify_webhook_spec None
                    {[ "hub.mode" := "subscribe"; "hub.challenge" := "7" ]})
             (conj eq_refl eq_refl)).
Defined.

End webhook.

(** ** Transaction identifiers *)

Lemma id_alphabet_NoDup : NoDup (list_ascii_of_string id_alphabet).
Proof. apply (bool_decide_unpack _). by vm_compute. Qed.

Lemma id_alphabet_chars :
  Forall (λ c, let n := nat_of_ascii c in
               (97 ≤ n ≤ 122 ∨ 48 ≤ n ≤ 57)%nat)
    (list_ascii_of_string id_alphabet).
Proof.
  cbv [id_alphabet list_ascii_of_string].
  repeat match goal with
         | |- Forall _ (_ :: _) => constructor; [vm_compute; lia|]
         end.
  constructor.
Qed.

Lemma id_alphabet_length : length (list_ascii_of_string id_alphabet) = 36%nat.
Proof. reflexivity. Qed.

(** X19.  An identifier has one character for each draw, each a
    lowercase letter or a digit, and distinct sequences of draws give
    distinct identifiers. *)
Theorem generate_transaction_id_spec draws :
  Forall (λ i, i < 36)%nat draws →
  String.length (generate_transaction_id draws) = length draws
  ∧ Forall (λ c, let n := nat_of_ascii c in
                 (97 ≤ n ≤ 122 ∨ 48 ≤ n ≤ 57)%nat)
      (list_ascii_of_string (generate_transaction_id draws))
  ∧ ∀ draws', Forall (λ i, i < 36)%nat draws' →
      generate_transaction_id draws' = generate_transaction_id draws →
      draws' = draws.
Proof.
  unfold generate_transaction_id. intros Hdraws. split_and!.
  - induction draws as [|i draws IH]; [done|]. simpl. f_equal.
    apply IH. by inversion Hdraws.
  - rewrite list_ascii_of_string_of_list_ascii.
    induction Hdraws as [|i draws Hi Hdraws IH]; [constructor|].
    rewrite fmap_cons. constructor; [|done].
    destruct (lookup_lt_is_Some_2 (list_ascii_of_string id_alphabet) i)
      as [c Hc]; [by rewrite id_alphabet_length|].
    rewrite Hc. cbn [default].
    by apply (proj1 (Forall_lookup _ _) id_alphabet_chars i c).
  - intros draws' Hdraws' Heq.
    apply (f_equal list_ascii_of_string) in Heq.
    rewrite !list_ascii_of_string_of_list_ascii in Heq.
    revert draws' Hdraws' Heq.
    induction Hdraws as [|i draws Hi Hdraws IH]; intros [|j draws'] Hdraws' Heq;
      try done.
    inversion Hdraws' as [|? ? Hj Hdraws'']; subst.
    rewrite !fmap_cons in Heq. injection Heq as Hc Heq.
    change (default "a"%char (list_ascii_of_string id_alphabet !! j)
            = default "a"%char (list_ascii_of_string id_alphabet !! i)) in Hc.
    f_equal; [|by apply IH].
    destruct (lookup_lt_is_Some_2 (list_ascii_of_string id_alphabet) i)
      as [c Hci]; [by rewrite id_alphabet_length|].
    destruct (lookup_lt_is_Some_2 (list_ascii_of_string id_alphabet) j)
      as [c' Hcj]; [by rewrite id_alphabet_length|].
    rewrite Hci, Hcj in Hc. cbn [from_option id] in Hc. subst c'.
    by apply (NoDup_lookup _ _ _ c id_alphabet_NoDup).
Qed.

Lemma generate_transaction_id_spec_witness :
  String.length (generate_transaction_id [0; 35; 10; 26; 1; 2; 3; 4]%nat) = 8%nat.
Proof.
  refine (proj1 (generate_transaction_id_spec [0; 35; 10; 26; 1; 2; 3; 4]%nat _)).
  repeat constructor.
Defined.
